(** * The freelan router, the POSIX tap adapter enumeration and the
      certificate wrapper: a shallow embedding and its properties.

    Sources embedded here:
    - [libs/freelan/src/router.cpp]: [router::async_write],
      [router::get_target_for] (both overloads) and [router::routes];
    - [src/posix/posix_tap_adapter.cpp]: [posix_tap_adapter::enumerate];
    - [include/cryptoplus/x509/certificate.hpp]: [operator==],
      [operator!=] and [certificate::clone]. *)

From Stdlib Require Import Strings.Byte.
From stdpp Require Import gmap strings list sorting pretty.

(** ** Executions that may leave defined behaviour

    [router.cpp] dereferences iterators returned by [std::map::find].
    Dereferencing the past-the-end iterator has no defined result; the
    embedding makes that outcome explicit instead of inventing a value. *)
Inductive exec (A : Type) : Type :=
  | Done (a : A)
  | Undefined.
Arguments Done {A} a.
Arguments Undefined {A}.

Module Router.

(** The declarations of [router.hpp], [port_index.hpp] and of the asiotap
    route types are not part of the sources at hand: the types they declare
    and the two operations [router.cpp] uses on routes are an interface. *)
Class Types := {
  (** [port_index_type]: the key of [m_ports]. *)
  port_index_type : Type;
  port_index_eq_dec :: EqDecision port_index_type;
  (** the type returned by [port_type::group()], compared with [!=]. *)
  group_type : Type;
  group_eq_dec :: EqDecision group_type;
  (** [asiotap::ip_route]: a network prefix of either family. *)
  ip_route : Type;
  (** [boost::asio::ip::address_v4] and [address_v6]. *)
  address_v4 : Type;
  address_v6 : Type;
  (** [port_type::write_handler_type]. *)
  write_handler_type : Type;
  (** [has_address(route, dest_addr)], one overload per address type. *)
  has_address_v4 : ip_route -> address_v4 -> bool;
  has_address_v6 : ip_route -> address_v6 -> bool;
  (** the ordering of the keys of [routes_port_type]. *)
  route_lt : ip_route -> ip_route -> bool;
}.

(** [boost::asio::const_buffer]: the bytes of the frame. *)
Definition const_buffer : Type := list byte.

Section Router.
Context `{Types}.

(** [port_type], as far as the router reads it: [group()] and
    [local_routes()] (iterated in the order of the route set). The write
    capability is accounted for by [port_call] below. *)
Record port_type : Type := {
  group : group_type;
  local_routes : list ip_route;
}.

(** [port_list_type] is a [std::map] from port index to port; the list
    holds its entries in iteration order. *)
Definition port_list_type : Type := list (port_index_type * port_type).

(** A [port_list_type::const_iterator], as returned by [m_ports.find]:
    [Some entry] points to an entry, [None] is [m_ports.end()]. *)
Definition port_iterator : Type := option (port_index_type * port_type).

(** [m_ports.find(index)]. *)
Fixpoint ports_find (ports : port_list_type) (index : port_index_type)
  : port_iterator :=
  match ports with
  | [] => None
  | entry :: rest =>
      if decide (entry.1 = index) then Some entry else ports_find rest index
  end.

(** Modelled from the spec: [routes_port_type] is declared in the absent
    [router.hpp]; section 3 describes the route table as an ordered
    multimap from network prefix to port index. The list holds the
    entries in iteration order. *)
Definition routes_port_type : Type := list (ip_route * port_index_type).

(** [std::multimap::insert(value)]: the entry goes to the upper bound of
    the keys equivalent to its own, that is before the first entry whose
    key is strictly greater. *)
Fixpoint multimap_insert (value : ip_route * port_index_type)
    (m : routes_port_type) : routes_port_type :=
  match m with
  | [] => [value]
  | entry :: rest =>
      if route_lt value.1 entry.1 then value :: m
      else entry :: multimap_insert value rest
  end.

(** The router configuration; [router.cpp] reads one field of it. *)
Record router_configuration : Type := {
  client_routing_enabled : bool;
}.

(** The members of [router] that [router.cpp] reads or writes.
    [m_routes] is the [mutable] optional cache. *)
Record router : Type := {
  m_configuration : router_configuration;
  m_ports : port_list_type;
  m_routes : option routes_port_type;
}.

(** The inner loop of [routes()]:
    [for (auto&& route : local_routes) m_routes->insert(make_pair(route, port->first))]. *)
Definition insert_local_routes (index : port_index_type)
    (routes_of_port : list ip_route) (acc : routes_port_type)
  : routes_port_type :=
  fold_left (fun m route => multimap_insert (route, index) m)
    routes_of_port acc.

(** The outer loop of [routes()], over [m_ports.begin() .. m_ports.end()]. *)
Definition compile_routes (ports : port_list_type) (acc : routes_port_type)
  : routes_port_type :=
  fold_left (fun m port => insert_local_routes port.1 (local_routes port.2) m)
    ports acc.

(** [router::routes()]: returns the table and the router, whose cache the
    call may have filled. *)
Definition routes (r : router) : routes_port_type * router :=
  match m_routes r with
  | Some table => (table, r)
  | None =>
      let table := compile_routes (m_ports r) [] in
      (table,
       {| m_configuration := m_configuration r;
          m_ports := m_ports r;
          m_routes := Some table |})
  end.

Section Selector.
Context {AddressType : Type}.
Variable has_address : ip_route -> AddressType -> bool.

(** The loop [for (auto&& route_port : routes_ports)] of the templated
    [get_target_for]. The condition
    [client_routing_enabled || (source.group() != port_entry->second.group())]
    evaluates its right operand only when the flag is off; the operand
    dereferences [port_entry] unchecked. *)
Fixpoint select_route (cfg : router_configuration) (ports : port_list_type)
    (source_port : port_type) (dest_addr : AddressType)
    (routes_ports : routes_port_type) : exec port_iterator :=
  match routes_ports with
  | [] => Done None
  | route_port :: rest =>
      if has_address route_port.1 dest_addr then
        let port_entry := ports_find ports route_port.2 in
        if client_routing_enabled cfg then Done port_entry
        else
          match port_entry with
          | None => Undefined
          | Some target =>
              if decide (group source_port ≠ group target.2)
              then Done port_entry
              else select_route cfg ports source_port dest_addr rest
          end
      else select_route cfg ports source_port dest_addr rest
  end.

(** [router::get_target_for<AddressType>(index, dest_addr)]. *)
Definition get_target_for_addr (r : router) (index : port_index_type)
    (dest_addr : AddressType) : exec port_iterator * router :=
  match ports_find (m_ports r) index with
  | Some source_port_entry =>
      let '(routes_ports, r') := routes r in
      (select_route (m_configuration r) (m_ports r)
         source_port_entry.2 dest_addr routes_ports, r')
  | None => (Done None, r)
  end.
End Selector.

Section Frames.
(** Modelled from the spec: the frame filters [m_ipv4_filter] and
    [m_ipv6_filter] belong to asiotap, which is not part of the sources
    at hand. Section 4.1 gives each of them as a pure
    [try_parse(buffer) -> Option<Address>]; [ipv4_parse data] stands for
    [parse(data)] followed by [get_last_helper()->destination()]. The
    selector empties the slot with [clear_last_helper()] whenever a parse
    filled it, so no helper is carried from one call to the next. *)
Variable ipv4_parse : const_buffer -> option address_v4.
Variable ipv6_parse : const_buffer -> option address_v6.

(** [router::get_target_for(index, data)]. *)
Definition get_target_for (r : router) (index : port_index_type)
    (data : const_buffer) : exec port_iterator * router :=
  match ipv4_parse data with
  | Some destination => get_target_for_addr has_address_v4 r index destination
  | None =>
      match ipv6_parse data with
      | Some destination =>
          get_target_for_addr has_address_v6 r index destination
      | None => (Done None, r)
      end
  end.

(** One call [port_entry->second.async_write(data, handler)]. *)
Record port_call : Type := PortAsyncWrite {
  call_index : port_index_type;
  call_port : port_type;
  call_data : const_buffer;
  call_handler : write_handler_type;
}.

(** [router::async_write(index, data, handler)]: the calls made on
    ports, in order, and the router afterwards. The [FREELAN_DEBUG]
    trace writes to [std::cerr] only and is left out. *)
Definition async_write (r : router) (index : port_index_type)
    (data : const_buffer) (handler : write_handler_type)
  : exec (list port_call) * router :=
  let '(port_entry, r') := get_target_for r index data in
  match port_entry with
  | Done (Some target) =>
      (Done [PortAsyncWrite target.1 target.2 data handler], r')
  | Done None => (Done [], r')
  | Undefined => (Undefined, r')
  end.

(** Modelled from the spec: the port write capability is outside the
    sources; by its contract (section 4.3) a port invokes the handler
    it was given exactly once per call. The handlers invoked for a
    sequence of port calls are therefore the handlers of the calls. *)
Definition handler_invocations (calls : list port_call)
  : list write_handler_type :=
  map call_handler calls.
End Frames.
End Router.

(** *** What the specification says the selector computes

    The definitions below follow the words of the specification (section
    4.4); they are compared with the embedding of the code above. *)
Section SelectorSpec.
Context `{Types}.

(** The policy gate: accept if [client_routing_enabled]; else accept only
    if the source port's group tag differs from the candidate's. *)
Definition policy_gate (cfg : router_configuration)
    (source_port candidate_port : port_type) : bool :=
  client_routing_enabled cfg
  || bool_decide (group source_port ≠ group candidate_port).

(** A route is admissible for a destination if its prefix contains the
    destination, its candidate index is in the registry (an absent
    candidate is skipped) and the candidate passes the policy gate. *)
Definition admissible {AddressType : Type}
    (has_address : ip_route -> AddressType -> bool)
    (cfg : router_configuration) (ports : port_list_type)
    (source_port : port_type) (dest_addr : AddressType)
    (route_port : ip_route * port_index_type) : bool :=
  has_address route_port.1 dest_addr
  && match ports_find ports route_port.2 with
     | Some candidate => policy_gate cfg source_port candidate.2
     | None => false
     end.

(** The first admissible route in table order decides; exhausting the
    table gives no route. *)
Definition first_admissible {AddressType : Type}
    (has_address : ip_route -> AddressType -> bool)
    (cfg : router_configuration) (ports : port_list_type)
    (source_port : port_type) (dest_addr : AddressType)
    (table : routes_port_type) : port_iterator :=
  match List.find (admissible has_address cfg ports source_port dest_addr) table with
  | Some route_port => ports_find ports route_port.2
  | None => None
  end.

(** The destination of a frame: the IPv4 parser first, the IPv6 parser on
    its failure. *)
Definition frame_destination
    (ipv4_parse : const_buffer -> option address_v4)
    (ipv6_parse : const_buffer -> option address_v6)
    (data : const_buffer) : option (address_v4 + address_v6) :=
  match ipv4_parse data with
  | Some destination => Some (inl destination)
  | None =>
      match ipv6_parse data with
      | Some destination => Some (inr destination)
      | None => None
      end
  end.

(** [has_address] on a destination of either family. *)
Definition has_address (route : ip_route) (dest : address_v4 + address_v6)
  : bool :=
  match dest with
  | inl a => has_address_v4 route a
  | inr a => has_address_v6 route a
  end.

(** Invariant I1 of the route table (section 3): every entry of the cached
    table references a port index present in the registry. An absent cache
    satisfies it. *)
Definition routes_coherent (r : router) : bool :=
  match m_routes r with
  | Some table =>
      forallb (fun route_port =>
                 bool_decide (is_Some (ports_find (m_ports r) route_port.2)))
        table
  | None => true
  end.

(** The router with its policy flag set to [flag], everything else kept:
    what swapping the configuration does to the state [router.cpp] reads. *)
Definition with_client_routing (flag : bool) (r : router) : router :=
  {| m_configuration := {| client_routing_enabled := flag |};
     m_ports := m_ports r;
     m_routes := m_routes r |}.

(** The flattened union of the local routes of all registered ports, each
    tagged with the index of its owner. *)
Definition flattened_local_routes (ports : port_list_type) : routes_port_type :=
  flat_map (fun port => map (fun route => (route, port.1)) (local_routes port.2))
    ports.
End SelectorSpec.

(** *** The ordering of the route table *)
Section RouteOrdering.
Context `{Types}.

(** Two routes are equivalent keys of the multimap when neither is ordered
    before the other. *)
Definition route_equiv (a b : ip_route) : bool :=
  negb (route_lt a b) && negb (route_lt b a).

(** The relation between an entry of the table and a later one: the later
    key is not ordered before the earlier key. *)
Definition not_after (a b : ip_route * port_index_type) : Prop :=
  route_lt b.1 a.1 = false.

(** What [std::multimap] requires of the comparison of its keys: a strict
    weak ordering, given here by asymmetry and negative transitivity. *)
Class StrictWeakOrder : Prop := {
  route_lt_asym : forall a b, route_lt a b = true -> route_lt b a = false;
  route_lt_neg_trans : forall a b c,
    route_lt a b = false -> route_lt b c = false -> route_lt a c = false;
}.

(** No local route of any registered port contains the destination. *)
Definition unadvertised {AddressType : Type}
    (has_address : ip_route -> AddressType -> bool)
    (ports : port_list_type) (dest_addr : AddressType) : bool :=
  forallb (fun port =>
             forallb (fun route => negb (has_address route dest_addr))
               (local_routes port.2))
    ports.
End RouteOrdering.

End Router.

(** ** [posix_tap_adapter::enumerate] *)
Module PosixTapAdapter.

(** [tap_adapter_layer], declared in the absent [types] header of asiotap;
    [enumerate] switches over these two enumerators. *)
Inductive tap_adapter_layer : Type :=
  | ethernet
  | ip.

(** [name.substr(0, 3)]: the first three characters, or all of [name] when
    it is shorter (position 0 never throws). *)
Definition substr_0_3 (name : string) : string := String.substring 0 3 name.

(** The body of [case tap_adapter_layer::ip]. *)
Definition case_ip (name : string) (result : gmap string string)
  : gmap string string :=
  if decide (substr_0_3 name = "tun") then <[name := name]> result else result.

(** The body of [case tap_adapter_layer::ethernet]; it has no [break], so
    control continues into the [ip] case. *)
Definition case_ethernet (name : string) (result : gmap string string)
  : gmap string string :=
  case_ip name
    (if decide (substr_0_3 name = "tap") then <[name := name]> result
     else result).

(** The [switch (_layer)] for one interface. *)
Definition switch_layer (_layer : tap_adapter_layer)
    (result : gmap string string) (name : string) : gmap string string :=
  match _layer with
  | ethernet => case_ethernet name result
  | ip => case_ip name result
  end.

(** [posix_tap_adapter::enumerate(_layer)]. The argument [addrs] is what
    [getifaddrs] delivers: [None] when it returns -1, otherwise the names
    [ifa_name] along the [ifa_next] chain. *)
Definition enumerate (addrs : option (list string)) (_layer : tap_adapter_layer)
  : gmap string string :=
  match addrs with
  | Some ifas => fold_left (switch_layer _layer) ifas ∅
  | None => ∅
  end.

(** The names for which the cases entered for a layer assign
    [result[name] = name]. *)
Definition recorded (_layer : tap_adapter_layer) (name : string) : Prop :=
  match _layer with
  | ethernet => substr_0_3 name = "tap" \/ substr_0_3 name = "tun"
  | ip => substr_0_3 name = "tun"
  end.

(** A name begins with a given word. *)
Definition begins_with (word name : string) : bool := String.prefix word name.

End PosixTapAdapter.

(** ** [cryptoplus::x509::certificate] *)
Module Certificate.

(** A raw [X509*]: an address, [NULL] being 0. *)
Definition pointer : Type := N.
Definition NULL : pointer := 0%N.

Section Certificate.
(** The contents of an OpenSSL [X509] structure. *)
Variable X509 : Type.

(** The live [X509] objects, by address. *)
Definition heap : Type := gmap N X509.

(** A [certificate] is a [pointer_wrapper<X509>]; [raw()] is the wrapped
    pointer, which is also [ptr().get()]. *)
Record certificate : Type := { raw : pointer }.

(** [operator==(lhs, rhs)]. *)
Definition eq_op (lhs rhs : certificate) : bool :=
  bool_decide (raw lhs = raw rhs).

(** [operator!=(lhs, rhs)]. *)
Definition neq_op (lhs rhs : certificate) : bool :=
  bool_decide (raw lhs ≠ raw rhs).

(** OpenSSL's [X509_dup], of which the header only sees the prototype:
    it returns a newly allocated copy of the object, or [NULL] when the
    allocation fails. [allocated] is what the allocator hands out for this
    call, [NULL] on failure. Duplicating through a pointer to no live
    object is undefined. *)
Definition X509_dup (h : heap) (allocated : pointer) (p : pointer)
  : exec (pointer * heap) :=
  match h !! p with
  | Some x =>
      if decide (allocated = NULL) then Done (NULL, h)
      else Done (allocated, <[allocated := x]> h)
  | None => Undefined
  end.

(** [certificate::clone()]: [certificate(X509_dup(ptr().get()))]. *)
Definition clone (h : heap) (allocated : pointer) (c : certificate)
  : exec (certificate * heap) :=
  match X509_dup h allocated (raw c) with
  | Done (p, h') => Done ({| raw := p |}, h')
  | Undefined => Undefined
  end.

(** What an allocator may hand out in heap [h]: [NULL], or an address that
    holds no live object. *)
Definition allocatable (h : heap) (allocated : pointer) : Prop :=
  allocated = NULL \/ h !! allocated = None.
(** A call that returns or throws a [cryptographic_exception]. *)
Inductive checked (A : Type) : Type :=
  | Returned (a : A)
  | cryptographic_exception.
Arguments Returned {A} a.
Arguments cryptographic_exception {A}.

(** [certificate()]: the wrapper of no pointer. *)
Definition null_certificate : certificate := {| raw := NULL |}.

(** [certificate::take_ownership(_ptr)]. [error::throw_error_if_not(x)]
    throws when [x] is null, as the comment of [create] documents. *)
Definition take_ownership (_ptr : pointer) : checked certificate :=
  if decide (_ptr = NULL) then cryptographic_exception
  else Returned {| raw := _ptr |}.

(** OpenSSL's [X509_new]: a newly allocated blank object, or [NULL] when
    the allocation fails. [allocated] is what the allocator hands out. *)
Definition X509_new (h : heap) (allocated : pointer) (blank : X509)
  : pointer * heap :=
  if decide (allocated = NULL) then (NULL, h)
  else (allocated, <[allocated := blank]> h).

(** [certificate::create()]. *)
Definition create (h : heap) (allocated : pointer) (blank : X509)
  : checked (certificate * heap) :=
  let '(_ptr, h') := X509_new h allocated blank in
  if decide (_ptr = NULL) then cryptographic_exception
  else
    match take_ownership _ptr with
    | Returned c => Returned (c, h')
    | cryptographic_exception => cryptographic_exception
    end.
End Certificate.
Arguments Returned {A} a.
Arguments cryptographic_exception {A}.

End Certificate.

(** ** A concrete instance of the router's interface

    The route and address types, the frame parsers and the ordering of
    routes come from asiotap, outside the sources at hand. This instance
    gives them as the specification describes them, so that the router can
    be run on the scenarios of section 8. *)
Module Scenario.
Import Router.

(** Modelled from the spec: a network prefix is an (address, prefix length)
    pair over the IPv4 or the IPv6 family (section 3); [asiotap::ip_route]
    itself is absent. *)
Inductive route : Type :=
  | V4 (network : N) (prefix_len : N)
  | V6 (network : N) (prefix_len : N).

(** Modelled from the spec: containment masks both operands with
    [~0 << (width - prefix_len)] in [width] bits and compares them
    (section 4.1); the code of [has_address] is absent. *)
Definition contains (width : N) (network prefix_len addr : N) : bool :=
  let mask := N.shiftl (N.ones prefix_len) (width - prefix_len) in
  (N.land addr mask =? N.land network mask)%N.

Definition route_has_v4 (rt : route) (addr : N) : bool :=
  match rt with
  | V4 network prefix_len => contains 32 network prefix_len addr
  | V6 _ _ => false
  end.

Definition route_has_v6 (rt : route) (addr : N) : bool :=
  match rt with
  | V4 _ _ => false
  | V6 network prefix_len => contains 128 network prefix_len addr
  end.

(** Modelled from the spec: prefixes are ordered by family, numeric
    address and descending prefix length (section 3); the comparison of
    [asiotap::ip_route] is absent. *)
Definition route_before (a b : route) : bool :=
  match a, b with
  | V4 n l, V4 n' l' | V6 n l, V6 n' l' =>
      ((n <? n') || ((n =? n') && (l' <? l)))%N
  | V4 _ _, V6 _ _ => true
  | V6 _ _, V4 _ _ => false
  end.

(** Big-endian value of a run of bytes. *)
Definition be (bytes : list byte) : N :=
  fold_left (fun acc b => (acc * 256 + Byte.to_N b)%N) bytes 0%N.

(** Modelled from the spec: an IPv4 parser rejects a bad version nibble, a
    truncated header and an invalid header length, and extracts the
    destination field of RFC 791 (sections 4.1 and 6); the asiotap filter
    is absent. *)
Definition parse_v4 (data : const_buffer) : option N :=
  match data with
  | [] => None
  | b :: _ =>
      let version := N.shiftr (Byte.to_N b) 4 in
      let ihl := N.land (Byte.to_N b) 15 in
      if ((version =? 4) && (5 <=? ihl)
          && (4 * ihl <=? N.of_nat (length data)))%N
      then Some (be (take 4 (drop 16 data)))
      else None
  end.

(** Modelled from the spec: the IPv6 counterpart, with the fixed 40-byte
    header of RFC 8200; the asiotap filter is absent. *)
Definition parse_v6 (data : const_buffer) : option N :=
  match data with
  | [] => None
  | b :: _ =>
      if ((N.shiftr (Byte.to_N b) 4 =? 6)
          && (40 <=? N.of_nat (length data)))%N
      then Some (be (take 16 (drop 24 data)))
      else None
  end.

(** Port indices, group tags and write handlers are natural numbers. *)
#[export] Instance types : Types := {|
  port_index_type := nat;
  group_type := nat;
  ip_route := route;
  address_v4 := N;
  address_v6 := N;
  write_handler_type := nat;
  has_address_v4 := route_has_v4;
  has_address_v6 := route_has_v6;
  route_lt := route_before;
|}.

(** [a.b.c.d] as a 32-bit address. *)
Definition ipv4 (a b c d : N) : N := (((a * 256 + b) * 256 + c) * 256 + d)%N.

(** A minimal IPv4 packet (20-byte header, no payload) from 10.0.0.1 to
    the given destination bytes. *)
Definition ipv4_frame (d0 d1 d2 d3 : byte) : const_buffer :=
  [x45; x00; x00; x14; x00; x00; x00; x00; x40; x11; x00; x00;
   x0a; x00; x00; x01; d0; d1; d2; d3].

(** A minimal IPv6 packet (40-byte header) to [2001:db8:1::1]. *)
Definition ipv6_frame : const_buffer :=
  [x60; x00; x00; x00; x00; x00; x3b; x40;
   x20; x01; x0d; xb8; x00; x00; x00; x00;
   x00; x00; x00; x00; x00; x00; x00; x01;
   x20; x01; x0d; xb8; x00; x01; x00; x00;
   x00; x00; x00; x00; x00; x00; x00; x01].

Definition port (g : nat) (rts : list route) : port_type :=
  {| group := g; local_routes := rts |}.

(** A router over the given ports whose route cache is invalidated. *)
Definition fresh_router (client_routing : bool) (ports : port_list_type)
  : router :=
  {| m_configuration := {| client_routing_enabled := client_routing |};
     m_ports := ports;
     m_routes := None |}.

(** The index the selector yields, if it yields a port. *)
Definition target_index (r : router) (index : nat) (data : const_buffer)
  : exec (option nat) :=
  match (get_target_for parse_v4 parse_v6 r index data).1 with
  | Done it => Done (fst <$> it)
  | Undefined => Undefined
  end.

(** The networks, ports and frames of the scenarios. *)
Definition net_a : route := V4 (ipv4 10 0 0 0) 24.
Definition net_b : route := V4 (ipv4 10 0 1 0) 24.
Definition net_wide : route := V4 (ipv4 10 0 0 0) 8.
Definition net6_a : route := V6 0x20010db8000000000000000000000000 48.
Definition net6_b : route := V6 0x20010db8000100000000000000000000 48.

Definition frame_to_a : const_buffer := ipv4_frame x0a x00 x00 x05.
Definition frame_to_b : const_buffer := ipv4_frame x0a x00 x01 x05.
Definition frame_elsewhere : const_buffer := ipv4_frame xc0 xa8 x05 x05.

Definition port_a : port_type := port 1 [net_a].
Definition port_b : port_type := port 2 [net_b].

(** Two peers in different groups, and the same two in one group. *)
Definition cross_group_ports : port_list_type := [(1, port_a); (2, port_b)].
Definition same_group_ports : port_list_type :=
  [(1, port 1 [net_a]); (2, port 1 [net_b])].

(** Three ports that advertise the same network, one of them also a wider
    one. *)
Definition three_ports : port_list_type :=
  [(1, port 1 [net_wide; net_a]); (2, port 2 [net_a]); (3, port 3 [net_a])].

(** A router whose cached table still lists port 7, which the registry no
    longer holds, ahead of port 2 for the same prefix. *)
Definition stale_router (client_routing : bool) : router :=
  {| m_configuration := {| client_routing_enabled := client_routing |};
     m_ports := cross_group_ports;
     m_routes := Some [(net_b, 7); (net_b, 2)] |}.

End Scenario.

(** ** [system.cpp], as built for POSIX (the branches without [WINDOWS]) *)
Module System.

(** A call that returns or throws [std::runtime_error(what)]. *)
Inductive outcome (A : Type) : Type :=
  | Returns (a : A)
  | Throws (what : string).
Arguments Returns {A} a.
Arguments Throws {A} what.

(** The levels of [fscp::log_level] that [execute] logs at. *)
Inductive log_level : Type :=
  | debug
  | warning.

(** One message handed to the logger. *)
Record log_entry : Type := {
  entry_level : log_level;
  entry_message : string;
}.

Section System.
(** The macro [FREELAN_NAME_VERSION_MAJOR] of the generated [defines.hpp]. *)
Variable FREELAN_NAME_VERSION_MAJOR : string.

(** [getenv(name)] in a process environment: the value, or [None] for the
    null pointer. A [boost::filesystem::path] built from a string holds
    that string, and [fs::path()] is the empty string. *)
Definition getenv (environ : gmap string string) (name : string)
  : option string :=
  environ !! name.

(** [get_execution_root_directory()]. *)
Definition get_execution_root_directory : string :=
  "/etc/" +:+ FREELAN_NAME_VERSION_MAJOR.

(** [get_home_directory()]. *)
Definition get_home_directory (environ : gmap string string) : outcome string :=
  match getenv environ "HOME" with
  | None => Throws "Unable to determine the home directory"
  | Some path => Returns path
  end.

(** [get_application_directory()]. *)
Definition get_application_directory : string :=
  "/etc/" +:+ FREELAN_NAME_VERSION_MAJOR.

(** [get_python_path_directory()]. *)
Definition get_python_path_directory (environ : gmap string string) : string :=
  match getenv environ "PYTHONPATH" with
  | None => "/opt/" +:+ FREELAN_NAME_VERSION_MAJOR +:+ "/python"
  | Some python_path => python_path
  end.

(** [get_python_virtual_environment_directory()]. *)
Definition get_python_virtual_environment_directory
    (environ : gmap string string) : string :=
  match getenv environ "VIRTUAL_ENV" with
  | None => ""
  | Some virtual_environment_directory => virtual_environment_directory
  end.

(** [get_python_home_directory()]. *)
Definition get_python_home_directory (environ : gmap string string) : string :=
  match getenv environ "PYTHONHOME" with
  | None => ""
  | Some python_home => python_home
  end.

(** [get_temporary_directory()]. *)
Definition get_temporary_directory : string := "/tmp/".
End System.

(** The character written as a backslash followed by n in the source. *)
Definition newline : Ascii.ascii := Ascii.ascii_of_nat 10.

(** The loop [for (auto&& pair : env) new_env[pair.first] = pair.second]
    of [execute], started on the current environment. *)
Definition overlay (current env : gmap string string) : gmap string string :=
  map_fold (fun name value new_env => <[name := value]> new_env) current env.

(** [execute(logger, script, args, env)]. [current] is what
    [executeplus::get_current_environment()] returns; [run real_args
    new_env] is [executeplus::execute(real_args, new_env, &oss)]: its
    return code and what it wrote to [oss]. The result is the messages
    handed to the logger, in order, and the value returned. *)
Definition execute (current : gmap string string)
    (run : list string -> gmap string string -> Z * string)
    (script : string) (args : list string) (env : gmap string string)
  : list log_entry * Z :=
  let real_args := [script] ++ args in
  let new_env := overlay current env in
  let calling :=
    {| entry_level := debug;
       entry_message := "Calling script " +:+ script +:+ "..." |} in
  let '(return_code, output) := run real_args new_env in
  let level := if decide (return_code = 0%Z) then debug else warning in
  let returned :=
    {| entry_level := level;
       entry_message :=
         "Script " +:+ script +:+ " returned " +:+ pretty return_code +:+ "." |} in
  let follows :=
    if decide (output = "") then []
    else [{| entry_level := debug;
             entry_message := "Output follows:" +:+ String newline output |}] in
  (calling :: returned :: follows, return_code).

End System.

(** * Properties of the router *)
Section RouterFacts.
Import Router.
Context `{Types}.

(** ** The registry lookup *)

Lemma ports_find_key (ports : port_list_type) index entry :
  ports_find ports index = Some entry -> entry.1 = index.
Proof.
  induction ports as [|e rest IH]; simpl; [discriminate|].
  destruct (decide (e.1 = index)) as [Heq|Hne]; [|exact IH].
  intros [= <-]. exact Heq.
Qed.

Lemma ports_find_is_Some (ports : port_list_type) index :
  is_Some (ports_find ports index) <-> index ∈ ports.*1.
Proof.
  induction ports as [|e rest IH]; simpl.
  - split; [intros [? [=]] | intros Hin; inversion Hin].
  - destruct (decide (e.1 = index)) as [Heq|Hne].
    + split; [intros _; subst; left | eauto].
    + rewrite IH. split; [intros; by right|].
      intros Hin. inversion Hin; subst; [done | assumption].
Qed.

(** ** The route table *)

Lemma multimap_insert_perm value (m : routes_port_type) :
  multimap_insert value m ≡ₚ value :: m.
Proof.
  induction m as [|entry rest IH]; simpl; [done|].
  destruct (route_lt value.1 entry.1); [done|].
  rewrite IH. apply Permutation_swap.
Qed.

Lemma insert_local_routes_perm index routes_of_port (acc : routes_port_type) :
  insert_local_routes index routes_of_port acc
  ≡ₚ map (fun route => (route, index)) routes_of_port ++ acc.
Proof.
  unfold insert_local_routes.
  revert acc. induction routes_of_port as [|route rest IH]; intros acc; simpl.
  - done.
  - rewrite IH, multimap_insert_perm. by rewrite Permutation_middle.
Qed.

Lemma compile_routes_perm (ports : port_list_type) (acc : routes_port_type) :
  compile_routes ports acc ≡ₚ flattened_local_routes ports ++ acc.
Proof.
  unfold compile_routes.
  revert acc. induction ports as [|port rest IH]; intros acc; simpl.
  - done.
  - rewrite IH, insert_local_routes_perm.
    rewrite <- (assoc_L (++)).
    apply Permutation_app_swap_app.
Qed.

Lemma flattened_local_routes_owner (ports : port_list_type) route_port :
  route_port ∈ flattened_local_routes ports ->
  is_Some (ports_find ports route_port.2).
Proof.
  unfold flattened_local_routes. rewrite list_elem_of_In, in_flat_map.
  intros (port & Hport & Hin).
  apply in_map_iff in Hin as (route & <- & _). simpl.
  apply ports_find_is_Some, list_elem_of_fmap.
  exists port. split; [done | by apply list_elem_of_In].
Qed.

(** Every entry of a rebuilt table references a registered port. *)
Lemma compile_routes_owner (ports : port_list_type) :
  Forall (fun route_port => is_Some (ports_find ports route_port.2))
    (compile_routes ports []).
Proof.
  apply Forall_forall. intros route_port Hin.
  apply flattened_local_routes_owner.
  rewrite compile_routes_perm, app_nil_r in Hin. exact Hin.
Qed.

(** Under invariant I1 the table handed out by [routes()] references
    registered ports only, whether it was cached or rebuilt. *)
Lemma routes_owner (r : router) :
  routes_coherent r = true ->
  Forall (fun route_port => is_Some (ports_find (m_ports r) route_port.2))
    (routes r).1.
Proof.
  unfold routes_coherent, routes.
  destruct (m_routes r) as [table|]; simpl.
  - intros Hall. apply Forall_forall. intros route_port Hin.
    rewrite forallb_forall in Hall.
    apply list_elem_of_In, Hall in Hin. by apply bool_decide_eq_true in Hin.
  - intros _. apply compile_routes_owner.
Qed.

(** [routes()] establishes invariant I1 and keeps the registry. *)
Lemma routes_establishes_coherence (r : router) :
  routes_coherent r = true ->
  routes_coherent (routes r).2 = true /\ m_ports (routes r).2 = m_ports r.
Proof.
  intros Hcoh. unfold routes.
  destruct (m_routes r) as [table|] eqn:Hcache; simpl; [done|].
  split; [|done]. unfold routes_coherent. simpl.
  apply forallb_forall. intros route_port Hin.
  apply bool_decide_eq_true.
  pose proof (compile_routes_owner (m_ports r)) as Hall.
  rewrite Forall_forall in Hall. by apply Hall, list_elem_of_In.
Qed.

(** ** The selection loop *)

Section Loop.
Context {AddressType : Type}.
Variable has : ip_route -> AddressType -> bool.

(** On a table that references registered ports only, the loop computes
    the first admissible route of the specification. *)
Lemma select_route_first_admissible cfg (ports : port_list_type)
    source_port dest (table : routes_port_type) :
  Forall (fun route_port => is_Some (ports_find ports route_port.2)) table ->
  select_route has cfg ports source_port dest table
  = Done (first_admissible has cfg ports source_port dest table).
Proof.
  unfold first_admissible.
  induction 1 as [|route_port rest [target Hfind] _ IH]; simpl; [done|].
  unfold admissible at 1, policy_gate.
  destruct (has route_port.1 dest); simpl; [|exact IH].
  rewrite Hfind. destruct (client_routing_enabled cfg); simpl.
  - by rewrite Hfind.
  - destruct (decide (group source_port ≠ group target.2)) as [Hne|Heq].
    + rewrite bool_decide_eq_true_2 by done. by rewrite Hfind.
    + rewrite bool_decide_eq_false_2 by done. exact IH.
Qed.

(** What "first admissible" means: the table splits around the chosen
    entry, no entry before it is admissible, and the result is the
    registry entry of its port; or no entry at all is admissible. *)
Lemma first_admissible_split cfg (ports : port_list_type)
    source_port dest (table : routes_port_type) :
  (exists before route_port after,
      table = before ++ route_port :: after
      /\ Forall (fun e => admissible has cfg ports source_port dest e = false)
           before
      /\ admissible has cfg ports source_port dest route_port = true
      /\ first_admissible has cfg ports source_port dest table
         = ports_find ports route_port.2)
  \/ (Forall (fun e => admissible has cfg ports source_port dest e = false)
        table
      /\ first_admissible has cfg ports source_port dest table = None).
Proof.
  unfold first_admissible.
  induction table as [|entry rest IH]; simpl; [by right|].
  destruct (admissible has cfg ports source_port dest entry) eqn:Hentry.
  - left. exists [], entry, rest. by repeat split.
  - destruct IH as [(before & route_port & after & -> & Hbefore & Hadm & Hres)
                   | [Hnone Hres]].
    + left. exists (entry :: before), route_port, after.
      repeat split; [by constructor | done | done].
    + right. split; [by constructor | done].
Qed.

(** With the policy flag off, a port the loop yields has a group tag
    different from the source port's. *)
Lemma select_route_off_group cfg (ports : port_list_type)
    source_port dest (table : routes_port_type) target :
  client_routing_enabled cfg = false ->
  select_route has cfg ports source_port dest table = Done (Some target) ->
  group source_port ≠ group target.2
  /\ ports_find ports target.1 = Some target.
Proof.
  intros Hoff. induction table as [|route_port rest IH]; simpl; [discriminate|].
  destruct (has route_port.1 dest); [|exact IH].
  rewrite Hoff.
  destruct (ports_find ports route_port.2) as [candidate|] eqn:Hfind;
    [|discriminate].
  destruct (decide (group source_port ≠ group candidate.2)) as [Hne|_];
    [|exact IH].
  intros [= <-]. split; [exact Hne|].
  by rewrite (ports_find_key _ _ _ Hfind).
Qed.

(** A port the loop yields is an entry of the registry. *)
Lemma select_route_registered cfg (ports : port_list_type)
    source_port dest (table : routes_port_type) target :
  select_route has cfg ports source_port dest table = Done (Some target) ->
  ports_find ports target.1 = Some target.
Proof.
  induction table as [|route_port rest IH]; simpl; [discriminate|].
  destruct (has route_port.1 dest); [|exact IH].
  destruct (client_routing_enabled cfg).
  - intros [= Hfind]. by rewrite (ports_find_key _ _ _ Hfind).
  - destruct (ports_find ports route_port.2) as [candidate|] eqn:Hfind;
      [|discriminate].
    destruct (decide (group source_port ≠ group candidate.2)); [|exact IH].
    intros [= <-]. by rewrite (ports_find_key _ _ _ Hfind).
Qed.

(** Whatever the loop delivers with the flag off, it delivers something
    with the flag on. *)
Lemma select_route_monotone (ports : port_list_type)
    source_port dest (table : routes_port_type) target :
  select_route has {| client_routing_enabled := false |} ports
    source_port dest table = Done (Some target) ->
  exists target',
    select_route has {| client_routing_enabled := true |} ports
      source_port dest table = Done (Some target').
Proof.
  induction table as [|route_port rest IH]; simpl; [discriminate|].
  destruct (has route_port.1 dest); [|exact IH].
  destruct (ports_find ports route_port.2) as [candidate|]; [|discriminate].
  intros _. by exists candidate.
Qed.

(** On a table that references registered ports only, the loop never
    dereferences the end iterator. *)
Lemma select_route_defined cfg (ports : port_list_type)
    source_port dest (table : routes_port_type) :
  Forall (fun route_port => is_Some (ports_find ports route_port.2)) table ->
  exists it, select_route has cfg ports source_port dest table = Done it.
Proof.
  intros Hall. rewrite (select_route_first_admissible _ _ _ _ _ Hall). eauto.
Qed.
End Loop.

(** The loop depends on the address only through the containment test. *)
Lemma select_route_ext {A B : Type} (has : ip_route -> A -> bool)
    (has' : ip_route -> B -> bool) (a : A) (b : B)
    cfg (ports : port_list_type) source_port (table : routes_port_type) :
  (forall route, has route a = has' route b) ->
  select_route has cfg ports source_port a table
  = select_route has' cfg ports source_port b table.
Proof.
  intros Hext. induction table as [|route_port rest IH]; simpl; [done|].
  rewrite Hext, IH. done.
Qed.
End RouterFacts.

(** * The selector, the dispatch and the route cache *)
Section RouterProperties.
Import Router.
Context `{Types}.
Variable ipv4_parse : const_buffer -> option address_v4.
Variable ipv6_parse : const_buffer -> option address_v6.

(** The selector on a frame is the templated selector on the frame's
    destination. *)
Lemma get_target_for_destination (r : router) index data dest :
  frame_destination ipv4_parse ipv6_parse data = Some dest ->
  get_target_for ipv4_parse ipv6_parse r index data
  = get_target_for_addr has_address r index dest.
Proof.
  unfold frame_destination, get_target_for, get_target_for_addr.
  destruct (ipv4_parse data) as [d4|].
  - intros [= <-]. destruct (ports_find (m_ports r) index); [|done].
    destruct (routes r). f_equal. by apply select_route_ext.
  - destruct (ipv6_parse data) as [d6|]; [|discriminate].
    intros [= <-]. destruct (ports_find (m_ports r) index); [|done].
    destruct (routes r). f_equal. by apply select_route_ext.
Qed.

(** A frame without a destination has no route and leaves the router as
    it is. *)
Lemma get_target_for_no_destination (r : router) index data :
  frame_destination ipv4_parse ipv6_parse data = None ->
  get_target_for ipv4_parse ipv6_parse r index data = (Done None, r).
Proof.
  unfold frame_destination, get_target_for.
  destruct (ipv4_parse data); [discriminate|].
  by destruct (ipv6_parse data).
Qed.


(** C2, as the code has it. With [client_routing_enabled] off, a port the
    selector resolves a frame to is never the source port: a port's own
    group tag never differs from itself. (With the flag on the selector
    has no check against the source index.) *)
Theorem C2_no_self_route_when_client_routing_off (r : router) index data target :
  client_routing_enabled (m_configuration r) = false ->
  (get_target_for ipv4_parse ipv6_parse r index data).1 = Done (Some target) ->
  target.1 ≠ index.
Proof.
  intros Hoff Hsel Heq.
  destruct (frame_destination ipv4_parse ipv6_parse data) as [dest|] eqn:Hdest.
  - rewrite (get_target_for_destination _ _ _ _ Hdest) in Hsel.
    unfold get_target_for_addr in Hsel.
    destruct (ports_find (m_ports r) index) as [source_entry|] eqn:Hsource;
      [|discriminate].
    destruct (routes r) as [table r']. simpl in Hsel.
    apply select_route_off_group in Hsel as [Hgroup Hfind]; [|exact Hoff].
    rewrite Heq, Hsource in Hfind. injection Hfind as ->. by apply Hgroup.
  - by rewrite (get_target_for_no_destination _ _ _ Hdest) in Hsel.
Qed.

(** C3, as the code has it. In every state that satisfies invariant I1
    (every entry of the route table references a registered port, which
    holds for every table [routes()] rebuilds), the selector never reads
    the group tag of a nonexistent port: it returns the end iterator or an
    entry of the registry, and the router it leaves satisfies I1 again. *)
Theorem C3_selector_defined_under_coherence (r : router) index data :
  routes_coherent r = true ->
  (exists it : port_iterator,
      (get_target_for ipv4_parse ipv6_parse r index data).1 = Done it
      /\ forall target, it = Some target ->
           ports_find (m_ports r) target.1 = Some target)
  /\ routes_coherent (get_target_for ipv4_parse ipv6_parse r index data).2 = true.
Proof.
  intros Hcoh.
  destruct (frame_destination ipv4_parse ipv6_parse data) as [dest|] eqn:Hdest.
  - rewrite (get_target_for_destination _ _ _ _ Hdest).
    unfold get_target_for_addr.
    destruct (ports_find (m_ports r) index) as [source_entry|] eqn:Hsource.
    + pose proof (routes_owner r Hcoh) as Hall.
      pose proof (routes_establishes_coherence r Hcoh) as [Hcoh' _].
      destruct (routes r) as [table r']. simpl in *. split; [|exact Hcoh'].
      destruct (select_route_defined has_address (m_configuration r) (m_ports r)
                  source_entry.2 dest table Hall) as [it Hit].
      exists it. split; [exact Hit|].
      intros target ->. by apply select_route_registered in Hit.
    + simpl. split; [|exact Hcoh]. exists None. by split.
  - rewrite (get_target_for_no_destination _ _ _ Hdest). simpl.
    split; [|exact Hcoh]. exists None. by split.
Qed.

(** C4. [async_write] calls the selected port's [async_write] exactly once,
    with the same data and the same handler, so that by the port contract
    the handler is invoked exactly once; when the selector returns no
    route it calls nothing and no handler is invoked. The router it
    leaves is the one the selector leaves. *)
Theorem C4_async_write_dispatch (r : router) index data handler :
  (forall target,
      (get_target_for ipv4_parse ipv6_parse r index data).1 = Done (Some target) ->
      (async_write ipv4_parse ipv6_parse r index data handler).1
      = Done [PortAsyncWrite target.1 target.2 data handler]
      /\ handler_invocations
           [PortAsyncWrite target.1 target.2 data handler] = [handler])
  /\ ((get_target_for ipv4_parse ipv6_parse r index data).1 = Done None ->
      (async_write ipv4_parse ipv6_parse r index data handler).1 = Done []
      /\ handler_invocations [] = @nil write_handler_type)
  /\ (async_write ipv4_parse ipv6_parse r index data handler).2
     = (get_target_for ipv4_parse ipv6_parse r index data).2.
Proof.
  unfold async_write.
  destruct (get_target_for ipv4_parse ipv6_parse r index data)
    as [[[target|]|] r']; simpl.
  - split; [|split; [discriminate|done]]. by intros ? [= <-].
  - split; [discriminate|done].
  - split; [discriminate|]. split; [discriminate|done].
Qed.

(** C5. For a fixed registry, route table, source index and frame: if the
    selector yields a destination with [client_routing_enabled] off, it
    yields a destination with the flag on. *)
Theorem C5_policy_monotone (r : router) index data target :
  (get_target_for ipv4_parse ipv6_parse (with_client_routing false r) index data).1
  = Done (Some target) ->
  exists target',
    (get_target_for ipv4_parse ipv6_parse (with_client_routing true r) index data).1
    = Done (Some target').
Proof.
  destruct (frame_destination ipv4_parse ipv6_parse data) as [dest|] eqn:Hdest.
  - rewrite !(get_target_for_destination _ _ _ _ Hdest).
    unfold get_target_for_addr, routes. simpl.
    destruct (ports_find (m_ports r) index) as [source_entry|]; [|discriminate].
    destruct (m_routes r) as [table|]; simpl; apply select_route_monotone.
  - by rewrite (get_target_for_no_destination _ _ _ Hdest).
Qed.

(** C6. With the cache absent, [routes()] rebuilds it from every port of
    the registry: the table it returns and stores holds exactly the local
    routes of all registered ports, each paired with the index of its
    port. With the cache present, [routes()] returns it and changes
    nothing. *)
Theorem C6_routes_rebuild_or_reuse cfg (ports : port_list_type) :
  (exists table,
      routes {| m_configuration := cfg; m_ports := ports; m_routes := None |}
      = (table,
         {| m_configuration := cfg; m_ports := ports; m_routes := Some table |})
      /\ table = compile_routes ports []
      /\ table ≡ₚ flattened_local_routes ports)
  /\ forall table,
       routes {| m_configuration := cfg; m_ports := ports; m_routes := Some table |}
       = (table,
          {| m_configuration := cfg; m_ports := ports; m_routes := Some table |}).
Proof.
  split; [|done].
  exists (compile_routes ports []). split; [done|]. split; [done|].
  by rewrite compile_routes_perm, app_nil_r.
Qed.

(** C7. When the source port index is not in the registry, the selector
    returns no route whatever the frame, the route table and the policy
    flag are; the route table is not acquired (the router, its cache
    included, is left as it was) and [async_write] calls no port. *)
Theorem C7_unknown_source_no_route (r : router) index data handler :
  ports_find (m_ports r) index = None ->
  get_target_for ipv4_parse ipv6_parse r index data = (Done None, r)
  /\ async_write ipv4_parse ipv6_parse r index data handler = (Done [], r).
Proof.
  intros Hsource.
  assert (get_target_for ipv4_parse ipv6_parse r index data = (Done None, r))
    as Hsel.
  { unfold get_target_for, get_target_for_addr. rewrite Hsource.
    destruct (ipv4_parse data); [done|]. by destruct (ipv6_parse data). }
  split; [exact Hsel|]. unfold async_write. by rewrite Hsel.
Qed.

(** C8. The selector tries the IPv4 parse first: a frame that parses as
    IPv4 is resolved with its IPv4 destination whatever the IPv6 parser
    would say of it; the IPv6 parse is used only when the IPv4 parse
    yields nothing; when both yield nothing, as for an empty buffer that
    neither parser accepts, the selector returns no route and the frame
    is dropped. *)
Theorem C8_ipv4_first_then_ipv6 (r : router) index data handler :
  (forall destination,
      ipv4_parse data = Some destination ->
      forall other_ipv6_parse : const_buffer -> option address_v6,
        get_target_for ipv4_parse other_ipv6_parse r index data
        = get_target_for_addr has_address_v4 r index destination)
  /\ (forall destination,
         ipv4_parse data = None -> ipv6_parse data = Some destination ->
         get_target_for ipv4_parse ipv6_parse r index data
         = get_target_for_addr has_address_v6 r index destination)
  /\ (ipv4_parse data = None -> ipv6_parse data = None ->
      get_target_for ipv4_parse ipv6_parse r index data = (Done None, r)
      /\ async_write ipv4_parse ipv6_parse r index data handler = (Done [], r))
  /\ (ipv4_parse [] = None -> ipv6_parse [] = None ->
      get_target_for ipv4_parse ipv6_parse r index [] = (Done None, r)
      /\ async_write ipv4_parse ipv6_parse r index [] handler = (Done [], r)).
Proof.
  unfold async_write, get_target_for.
  split; [|split; [|split]].
  - by intros destination -> other.
  - by intros destination -> ->.
  - by intros -> ->.
  - by intros -> ->.
Qed.
End RouterProperties.

(** * The interfaces [posix_tap_adapter::enumerate] returns *)
Section EnumerateProperties.
Import PosixTapAdapter.

(** Comparing [substr(0, 3)] with a three-letter word tests for a prefix. *)
Lemma substr_0_3_begins_with (a b c : Ascii.ascii) (name : string) :
  substr_0_3 name = String a (String b (String c EmptyString))
  <-> begins_with (String a (String b (String c EmptyString))) name = true.
Proof.
  unfold substr_0_3, begins_with.
  destruct name as [|a' [|b' [|c' rest]]]; simpl;
    try (split; [discriminate | done]).
  - destruct (Ascii.ascii_dec a a'); split; try discriminate; try done.
  - destruct (Ascii.ascii_dec a a'), (Ascii.ascii_dec b b');
      split; try discriminate; try done; intros [=]; done.
  - assert (String.substring 0 0 rest = EmptyString) as -> by by destruct rest.
    assert (String.prefix EmptyString rest = true) as -> by by destruct rest.
    destruct (Ascii.ascii_dec a a'), (Ascii.ascii_dec b b'), (Ascii.ascii_dec c c');
      split; try discriminate; try done; try (intros [=]; done).
    intros _. by subst.
Qed.

Lemma case_ip_lookup name result key value :
  case_ip name result !! key = Some value
  <-> (key = name /\ value = name /\ substr_0_3 name = "tun")
      \/ (~ (key = name /\ substr_0_3 name = "tun") /\ result !! key = Some value).
Proof.
  unfold case_ip. destruct (decide (substr_0_3 name = "tun")) as [Htun|Hno].
  - rewrite lookup_insert. destruct (decide (name = key)) as [->|Hne].
    + split; [intros [= <-]; by left | ].
      intros [(_ & -> & _) | [Hnot _]]; [done | by destruct Hnot].
    + split; [intros Hl; right; split; [intros [-> _]; done | done] | ].
      intros [(-> & _) | [_ Hl]]; done.
  - split; [intros Hl; right; split; [intros [_ ?]; done | done] | ].
    intros [(_ & _ & ?) | [_ Hl]]; done.
Qed.

Lemma switch_layer_lookup _layer name result key value :
  switch_layer _layer result name !! key = Some value
  <-> (key = name /\ value = name /\ recorded _layer name)
      \/ (~ (key = name /\ recorded _layer name) /\ result !! key = Some value).
Proof.
  destruct _layer; simpl; [|apply case_ip_lookup].
  unfold case_ethernet. rewrite case_ip_lookup.
  destruct (decide (substr_0_3 name = "tap")) as [Htap|Hno].
  - rewrite lookup_insert. destruct (decide (name = key)) as [->|Hne].
    + split.
      * intros [(_ & -> & Htun) | [_ [= <-]]]; left; auto.
      * intros [(_ & -> & _) | [Hnot _]]; [|destruct Hnot; auto].
        destruct (decide (substr_0_3 key = "tun")); [by left|].
        right. split; [intros [_ ?]; done | done].
    + split.
      * intros [(-> & _) | [_ Hl]]; [done|]. right.
        split; [intros [-> _]; done | done].
      * intros [(-> & _) | [_ Hl]]; [done|]. right.
        split; [intros [-> _]; done | done].
  - split.
    + intros [(-> & -> & Htun) | [Hnot Hl]]; [left; auto|].
      right. split; [|done]. intros [-> [?|?]]; [done|]. by apply Hnot.
    + intros [(-> & -> & [?|Htun]) | [Hnot Hl]]; [done | left; auto | ].
      right. split; [|done]. intros [-> ?]. apply Hnot. auto.
Qed.

Lemma fold_switch_layer_lookup _layer ifas result key value :
  fold_left (switch_layer _layer) ifas result !! key = Some value
  <-> (value = key /\ key ∈ ifas /\ recorded _layer key)
      \/ (~ (key ∈ ifas /\ recorded _layer key) /\ result !! key = Some value).
Proof.
  revert result. induction ifas as [|name rest IH]; intros result; simpl.
  - split; [intros Hl; right; split; [intros [Hin _]; inversion Hin | done] | ].
    intros [(_ & Hin & _) | [_ Hl]]; [inversion Hin | done].
  - rewrite IH, switch_layer_lookup. split.
    + intros [(-> & Hin & Hrec) | [Hnot [(-> & -> & Hrec) | [Hnot' Hl]]]].
      * left. repeat split; [by right | done].
      * left. repeat split; [by left | done].
      * right. split; [|done]. intros [Hin Hrec].
        inversion Hin; subst; [apply Hnot'; auto | apply Hnot; auto].
    + intros [(-> & Hin & Hrec) | [Hnot Hl]].
      * destruct (decide (key ∈ rest)) as [Hrest|Hrest]; [left; auto|].
        right. split; [intros [? _]; done|]. left.
        inversion Hin; subst; [auto | done].
      * right. split; [intros [Hin Hrec]; apply Hnot; split; [by right|done]|].
        right. split; [|done].
        intros [-> Hrec]. apply Hnot. split; [by left | done].
Qed.

(** C9. With the ethernet layer the returned map holds every interface
    whose name begins with tap and every interface whose name begins with
    tun (the ethernet case falls through into the ip case), each bound to
    its own name, and nothing else; with the ip layer it holds exactly the
    interfaces whose name begins with tun. When [getifaddrs] fails the
    map is empty. *)
Theorem C9_enumerate_falls_through (ifas : list string) (name value : string) :
  (enumerate (Some ifas) ethernet !! name = Some value
   <-> value = name /\ name ∈ ifas
       /\ (begins_with "tap" name = true \/ begins_with "tun" name = true))
  /\ (enumerate (Some ifas) ip !! name = Some value
      <-> value = name /\ name ∈ ifas /\ begins_with "tun" name = true)
  /\ forall _layer, enumerate None _layer = ∅.
Proof.
  unfold enumerate. split; [|split; [|done]].
  - rewrite fold_switch_layer_lookup, lookup_empty. simpl.
    rewrite <- !substr_0_3_begins_with.
    split; [intros [?|[_ [=]]]; done | intros ?; by left].
  - rewrite fold_switch_layer_lookup, lookup_empty. simpl.
    rewrite <- !substr_0_3_begins_with.
    split; [intros [?|[_ [=]]]; done | intros ?; by left].
Qed.
End EnumerateProperties.

(** * Equality of certificates *)
Section CertificateProperties.
Import Certificate.
Variable X509 : Type.

(** C10. [operator==] is true exactly when both instances wrap the same
    raw pointer (and [operator!=] is its negation); so the clone of a
    non-null certificate, which wraps a newly allocated copy of the same
    contents (or [NULL] when the allocation fails), compares unequal to
    the certificate it was cloned from. *)
Theorem C10_equality_is_pointer_identity :
  (forall lhs rhs : certificate, eq_op lhs rhs = true <-> raw lhs = raw rhs)
  /\ (forall lhs rhs : certificate, neq_op lhs rhs = negb (eq_op lhs rhs))
  /\ forall (h : heap X509) allocated (c : certificate) (x : X509),
       raw c ≠ NULL -> h !! raw c = Some x -> allocatable X509 h allocated ->
       exists c' h',
         clone X509 h allocated c = Done (c', h')
         /\ eq_op c c' = false /\ eq_op c' c = false
         /\ neq_op c c' = true
         /\ (allocated ≠ NULL ->
             h' !! raw c' = Some x /\ h' !! raw c = Some x).
Proof.
  split; [|split].
  - intros lhs rhs. unfold eq_op. apply bool_decide_eq_true.
  - intros lhs rhs. unfold neq_op, eq_op.
    destruct (decide (raw lhs = raw rhs)) as [Heq|Hne].
    + rewrite bool_decide_eq_false_2, bool_decide_eq_true_2; auto.
    + rewrite bool_decide_eq_true_2, bool_decide_eq_false_2; auto.
  - intros h allocated c x Hnonnull Hlive Halloc.
    unfold clone, X509_dup. rewrite Hlive.
    unfold eq_op, neq_op, allocatable, heap, NULL in *.
    destruct (decide (allocated = 0%N)) as [->|Hgot].
    + eexists _, _. split; [done|]. simpl.
      rewrite !bool_decide_eq_false_2, bool_decide_eq_true_2 by congruence.
      repeat split; done.
    + destruct Halloc as [?|Hfree]; [done|].
      assert (raw c ≠ allocated) as Hne by congruence.
      eexists _, _. split; [done|]. simpl.
      rewrite !bool_decide_eq_false_2, bool_decide_eq_true_2 by congruence.
      repeat split; [apply lookup_insert_eq|].
      by rewrite lookup_insert_ne.
Qed.
End CertificateProperties.

(** * The scenarios of the specification, run on the embedding *)
Section Scenarios.
Import Router Scenario.

Example parsers_reject_empty_buffer : parse_v4 [] = None /\ parse_v6 [] = None.
Proof. split; reflexivity. Qed.

Example scenario_cross_group :
  target_index (fresh_router false cross_group_ports) 1 frame_to_b
  = Done (Some 2).
Proof. reflexivity. Qed.

Example scenario_intra_group_client_routing_off :
  target_index (fresh_router false same_group_ports) 1 frame_to_b = Done None.
Proof. reflexivity. Qed.

Example scenario_intra_group_client_routing_on :
  target_index (fresh_router true same_group_ports) 1 frame_to_b
  = Done (Some 2).
Proof. reflexivity. Qed.

Example scenario_no_route :
  target_index (fresh_router false cross_group_ports) 1 frame_elsewhere
  = Done None.
Proof. reflexivity. Qed.

Example scenario_ipv6 :
  target_index
    (fresh_router false [(1, port 1 [net6_a]); (2, port 2 [net6_b])])
    1 ipv6_frame
  = Done (Some 2).
Proof. vm_compute. reflexivity. Qed.

Example scenario_most_specific_wins :
  target_index
    (fresh_router false
       [(1, port 1 [net_wide]); (2, port 2 [net_a]); (3, port 3 [])])
    3 frame_to_a
  = Done (Some 2).
Proof. reflexivity. Qed.

Example scenario_self_route_client_routing_off :
  target_index (fresh_router false [(1, port_a)]) 1 frame_to_a = Done None.
Proof. reflexivity. Qed.

Example scenario_rebuilt_table_order :
  (routes (fresh_router false
             [(1, port 1 [net_wide]); (2, port 2 [net_a]); (3, port 3 [net_a])])).1
  = [(net_a, 2); (net_a, 3); (net_wide, 1)].
Proof. reflexivity. Qed.

(** ** The properties above at the scenarios *)



(** With [client_routing_enabled] on, a frame from port 1 to a network
    that port 1 itself advertises is resolved to port 1: the resolved
    index equals the source index. *)
Lemma C2_counterexample :
  ~ (forall target,
       (get_target_for parse_v4 parse_v6
          (fresh_router true [(1, port_a)]) 1 frame_to_a).1
       = Done (Some target) ->
       target.1 ≠ 1).
Proof.
  intros Hno_self. by apply (Hno_self (1, port_a)).
Qed.

Lemma C2_witness :
  client_routing_enabled
    (m_configuration (fresh_router false cross_group_ports)) = false
  /\ (2, port_b).1 ≠ 1.
Proof.
  split; [reflexivity|].
  apply (C2_no_self_route_when_client_routing_off (H := types) parse_v4 parse_v6
           (fresh_router false cross_group_ports) 1 frame_to_b (2, port_b));
    reflexivity.
Defined.

(** On a table whose first matching entry names a port absent from the
    registry, the selector does not skip to the next entry: with
    [client_routing_enabled] on it returns no route although the next
    entry is admissible, and with the flag off it reads the group tag
    through the end iterator. *)
Lemma C3_counterexample :
  (get_target_for parse_v4 parse_v6 (stale_router true) 1 frame_to_b).1
  = Done None
  /\ first_admissible has_address_v4 {| client_routing_enabled := true |}
       cross_group_ports port_a (ipv4 10 0 1 5)
       (routes (stale_router true)).1
     = Some (2, port_b)
  /\ (get_target_for parse_v4 parse_v6 (stale_router false) 1 frame_to_b).1
     = Undefined.
Proof. repeat split. Qed.

Lemma C3_witness :
  routes_coherent (fresh_router false cross_group_ports) = true
  /\ (exists it : port_iterator,
        (get_target_for parse_v4 parse_v6
           (fresh_router false cross_group_ports) 1 frame_to_b).1 = Done it
        /\ forall target, it = Some target ->
             ports_find cross_group_ports target.1 = Some target)
  /\ routes_coherent
       (get_target_for parse_v4 parse_v6
          (fresh_router false cross_group_ports) 1 frame_to_b).2 = true.
Proof.
  split; [reflexivity|].
  apply (C3_selector_defined_under_coherence (H := types) parse_v4 parse_v6
           (fresh_router false cross_group_ports) 1 frame_to_b).
  reflexivity.
Defined.

Lemma C4_witness :
  (async_write parse_v4 parse_v6
     (fresh_router false cross_group_ports) 1 frame_to_b 5).1
  = Done [PortAsyncWrite 2 port_b frame_to_b 5]
  /\ (async_write parse_v4 parse_v6
        (fresh_router false cross_group_ports) 1 frame_elsewhere 5).1
     = Done [].
Proof.
  split.
  - apply (proj1 (C4_async_write_dispatch (H := types) parse_v4 parse_v6
                    (fresh_router false cross_group_ports) 1 frame_to_b 5)
             (2, port_b)).
    reflexivity.
  - apply (proj1 (proj2 (C4_async_write_dispatch (H := types) parse_v4 parse_v6
                           (fresh_router false cross_group_ports) 1
                           frame_elsewhere 5))).
    reflexivity.
Defined.

Lemma C5_witness :
  exists target',
    (get_target_for parse_v4 parse_v6
       (with_client_routing true (fresh_router false cross_group_ports))
       1 frame_to_b).1
    = Done (Some target').
Proof.
  apply (C5_policy_monotone (H := types) parse_v4 parse_v6
           (fresh_router false cross_group_ports) 1 frame_to_b (2, port_b)).
  reflexivity.
Defined.

Lemma C7_witness :
  ports_find cross_group_ports 9 = None
  /\ get_target_for parse_v4 parse_v6
       (fresh_router true cross_group_ports) 9 frame_to_b
     = (Done None, fresh_router true cross_group_ports)
  /\ async_write parse_v4 parse_v6
       (fresh_router true cross_group_ports) 9 frame_to_b 5
     = (Done [], fresh_router true cross_group_ports).
Proof.
  split; [reflexivity|].
  apply (C7_unknown_source_no_route (H := types) parse_v4 parse_v6
           (fresh_router true cross_group_ports) 9 frame_to_b 5).
  reflexivity.
Defined.

Lemma C8_witness :
  (forall other_ipv6_parse,
      get_target_for parse_v4 other_ipv6_parse
        (fresh_router false cross_group_ports) 1 frame_to_b
      = get_target_for_addr has_address_v4
          (fresh_router false cross_group_ports) 1 (ipv4 10 0 1 5))
  /\ get_target_for parse_v4 parse_v6
       (fresh_router false cross_group_ports) 1 ipv6_frame
     = get_target_for_addr has_address_v6
         (fresh_router false cross_group_ports) 1
         0x20010db8000100000000000000000001%N
  /\ get_target_for parse_v4 parse_v6
       (fresh_router false cross_group_ports) 1 [x50; x00]
     = (Done None, fresh_router false cross_group_ports)
  /\ get_target_for parse_v4 parse_v6
       (fresh_router false cross_group_ports) 1 []
     = (Done None, fresh_router false cross_group_ports).
Proof.
  split; [|split; [|split]].
  - apply (proj1 (C8_ipv4_first_then_ipv6 (H := types) parse_v4 parse_v6
                    (fresh_router false cross_group_ports) 1 frame_to_b 5)).
    reflexivity.
  - apply (proj1 (proj2 (C8_ipv4_first_then_ipv6 (H := types) parse_v4 parse_v6
                           (fresh_router false cross_group_ports) 1
                           ipv6_frame 5))).
    + reflexivity.
    + vm_compute. reflexivity.
  - apply (proj1 (proj2 (proj2 (C8_ipv4_first_then_ipv6 (H := types) parse_v4 parse_v6
                                  (fresh_router false cross_group_ports) 1
                                  [x50; x00] 5))));
      reflexivity.
  - apply (proj2 (proj2 (proj2 (C8_ipv4_first_then_ipv6 (H := types) parse_v4 parse_v6
                                  (fresh_router false cross_group_ports) 1
                                  [] 5))));
      reflexivity.
Defined.
End Scenarios.

(** * The tap adapter and the certificate on concrete inputs *)
Section OtherInstances.
Import PosixTapAdapter Certificate.

Example enumerate_ethernet_lists_tap_and_tun :
  enumerate (Some ["lo"; "tap0"; "eth0"; "tun0"; "tu"]) ethernet
  = {[ "tap0" := "tap0"; "tun0" := "tun0" ]}.
Proof. apply map_eq. intros name. vm_compute. reflexivity. Qed.

Lemma C10_witness :
  exists (c' : certificate) (h' : heap nat),
    clone nat {[ 5%N := 42 ]} 8%N {| raw := 5%N |} = Done (c', h')
    /\ eq_op {| raw := 5%N |} c' = false /\ eq_op c' {| raw := 5%N |} = false
    /\ neq_op {| raw := 5%N |} c' = true
    /\ (8%N ≠ NULL ->
        h' !! raw c' = Some 42 /\ h' !! raw {| raw := 5%N |} = Some 42).
Proof.
  apply (proj2 (proj2 (C10_equality_is_pointer_identity nat))
           {[ 5%N := 42 ]} 8%N {| raw := 5%N |} 42).
  - discriminate.
  - reflexivity.
  - right. reflexivity.
Defined.
End OtherInstances.

(** * Further properties of the route table *)
Section RouteTableOrder.
Import Router.
Context `{Types}.

Lemma multimap_insert_HdRel entry value (m : routes_port_type) :
  HdRel not_after entry m -> not_after entry value ->
  HdRel not_after entry (multimap_insert value m).
Proof.
  intros Hhd Hvalue. destruct m as [|first rest]; simpl.
  - by constructor.
  - destruct (route_lt value.1 first.1); constructor; [done|].
    by inversion Hhd.
Qed.

(** Inserting keeps the table ordered; only asymmetry is needed. *)
Lemma multimap_insert_Sorted value (m : routes_port_type) :
  (forall a b, route_lt a b = true -> route_lt b a = false) ->
  Sorted not_after m -> Sorted not_after (multimap_insert value m).
Proof.
  intros Hasym. induction 1 as [|entry rest Hsorted IH Hhd]; simpl.
  - by repeat constructor.
  - destruct (route_lt value.1 entry.1) eqn:Hlt.
    + constructor; [by constructor|]. constructor. by apply Hasym.
    + constructor; [exact IH|]. by apply multimap_insert_HdRel.
Qed.

Lemma insert_local_routes_Sorted index routes_of_port (acc : routes_port_type) :
  (forall a b, route_lt a b = true -> route_lt b a = false) ->
  Sorted not_after acc ->
  Sorted not_after (insert_local_routes index routes_of_port acc).
Proof.
  intros Hasym. unfold insert_local_routes.
  revert acc. induction routes_of_port as [|route rest IH]; intros acc Hacc;
    simpl; [done|].
  by apply IH, multimap_insert_Sorted.
Qed.

Lemma compile_routes_Sorted (ports : port_list_type) (acc : routes_port_type) :
  (forall a b, route_lt a b = true -> route_lt b a = false) ->
  Sorted not_after acc -> Sorted not_after (compile_routes ports acc).
Proof.
  intros Hasym. unfold compile_routes.
  revert acc. induction ports as [|port rest IH]; intros acc Hacc;
    simpl; [done|].
  by apply IH, insert_local_routes_Sorted.
Qed.

(** X1. The table [routes()] rebuilds is in key order: no entry is
    followed by an entry whose route is ordered before its own, as soon as
    the comparison of routes is asymmetric. *)
Theorem X1_rebuilt_table_sorted cfg (ports : port_list_type) :
  (forall a b, route_lt a b = true -> route_lt b a = false) ->
  Sorted not_after
    (routes {| m_configuration := cfg; m_ports := ports; m_routes := None |}).1.
Proof.
  intros Hasym. simpl. apply compile_routes_Sorted; [done | constructor].
Qed.

Section Stable.
Context `{!StrictWeakOrder}.

#[local] Instance not_after_transitive : Transitive not_after.
Proof. intros a b c Hab Hbc. unfold not_after in *. eauto using route_lt_neg_trans. Qed.

(** An entry ordered after an entry equivalent to [key] is not equivalent
    to [key]. *)
Lemma route_equiv_not_after_greater key (value later : ip_route) :
  route_equiv key value = true -> route_lt value later = true ->
  route_equiv key later = false.
Proof.
  unfold route_equiv. intros [Hkv Hvk]%andb_true_iff Hlt.
  apply negb_true_iff in Hkv, Hvk.
  destruct (route_lt key later) eqn:Hkl; [done|].
  by rewrite (route_lt_neg_trans _ _ _ Hvk Hkl) in Hlt.
Qed.

Lemma filter_none {A : Type} (P : A -> Prop) `{!forall x, Decision (P x)}
    (l : list A) :
  Forall (fun x => ~ P x) l -> filter P l = [].
Proof.
  induction 1 as [|x rest Hx _ IH]; [done|]. by rewrite filter_cons_False.
Qed.

(** Among the entries equivalent to a key, an inserted entry comes last. *)
Lemma multimap_insert_filter key value (m : routes_port_type) :
  Sorted not_after m ->
  filter (fun e => route_equiv key e.1 = true) (multimap_insert value m)
  = filter (fun e => route_equiv key e.1 = true) m
    ++ filter (fun e => route_equiv key e.1 = true) [value].
Proof.
  intros Hsorted. apply Sorted_StronglySorted in Hsorted; [|apply _].
  induction Hsorted as [|entry rest Hrest IH Hall]; simpl; [done|].
  destruct (route_lt value.1 entry.1) eqn:Hlt.
  - rewrite (filter_cons _ value).
    destruct (decide (route_equiv key value.1 = true)) as [Hequiv|Hno].
    + assert (forall later, later = entry \/ later ∈ rest ->
                route_lt value.1 later.1 = true) as Hlater.
      { intros later [->|Hin]; [done|].
        rewrite Forall_forall in Hall. specialize (Hall _ Hin).
        destruct (route_lt value.1 later.1) eqn:Hvl; [done|].
        by rewrite (route_lt_neg_trans _ _ _ Hvl Hall) in Hlt. }
      assert (Forall (fun e => ~ route_equiv key e.1 = true) (entry :: rest))
        as Hnone.
      { apply Forall_forall. intros later Hin.
        rewrite (route_equiv_not_after_greater key value.1 later.1); [done..|].
        apply Hlater. by inversion Hin; subst; [left|right]. }
      rewrite !(filter_none _ _ Hnone). simpl.
      rewrite filter_cons_True, filter_nil; done.
    + rewrite (filter_cons_False _ value) by done.
      by rewrite filter_nil, app_nil_r.
  - rewrite !(filter_cons _ entry).
    destruct (decide (route_equiv key entry.1 = true));
      [simpl; f_equal|]; exact IH.
Qed.

Lemma insert_local_routes_filter key index routes_of_port
    (acc : routes_port_type) :
  Sorted not_after acc ->
  filter (fun e => route_equiv key e.1 = true)
    (insert_local_routes index routes_of_port acc)
  = filter (fun e => route_equiv key e.1 = true) acc
    ++ filter (fun e => route_equiv key e.1 = true)
         (map (fun route => (route, index)) routes_of_port).
Proof.
  unfold insert_local_routes.
  revert acc. induction routes_of_port as [|route rest IH]; intros acc Hacc;
    simpl.
  - by rewrite ?filter_nil, app_nil_r.
  - rewrite IH by (apply multimap_insert_Sorted; [apply route_lt_asym | done]).
    rewrite multimap_insert_filter by done.
    rewrite <- (assoc_L (++)), <- filter_app. done.
Qed.

Lemma compile_routes_filter key (ports : port_list_type)
    (acc : routes_port_type) :
  Sorted not_after acc ->
  filter (fun e => route_equiv key e.1 = true) (compile_routes ports acc)
  = filter (fun e => route_equiv key e.1 = true) acc
    ++ filter (fun e => route_equiv key e.1 = true)
         (flattened_local_routes ports).
Proof.
  unfold compile_routes.
  revert acc. induction ports as [|port rest IH]; intros acc Hacc; simpl.
  - by rewrite ?filter_nil, app_nil_r.
  - rewrite IH by (apply insert_local_routes_Sorted; [apply route_lt_asym | done]).
    rewrite insert_local_routes_filter by done.
    unfold routes_port_type. by rewrite filter_app, (assoc_L (++)).
Qed.

(** X2. Ties keep registry order: the entries of a rebuilt table whose
    routes are equivalent to a given key are the matching local routes in
    the order in which [routes()] visits them, port after port in registry
    order and route after route within a port. *)
Theorem X2_rebuilt_table_stable cfg (ports : port_list_type) (key : ip_route) :
  filter (fun e => route_equiv key e.1 = true)
    (routes {| m_configuration := cfg; m_ports := ports; m_routes := None |}).1
  = filter (fun e => route_equiv key e.1 = true) (flattened_local_routes ports).
Proof.
  simpl. rewrite compile_routes_filter by constructor. by rewrite ?filter_nil.
Qed.
End Stable.
End RouteTableOrder.

(** * Further properties of the selector *)
Section SelectorFurther.
Import Router.
Context `{Types}.

Lemma ports_find_elem (ports : port_list_type) index entry :
  ports_find ports index = Some entry -> entry ∈ ports.
Proof.
  induction ports as [|e rest IH]; simpl; [discriminate|].
  destruct (decide (e.1 = index)).
  - intros [= <-]. by left.
  - intros Hfind. right. by apply IH.
Qed.

(** In a registry with unique keys, looking up the key of an entry finds
    that entry. *)
Lemma ports_find_NoDup (ports : port_list_type) entry :
  NoDup ports.*1 -> entry ∈ ports -> ports_find ports entry.1 = Some entry.
Proof.
  induction ports as [|e rest IH]; simpl; intros Hnodup Hin;
    [by inversion Hin|].
  apply NoDup_cons in Hnodup as [Hfresh Hnodup].
  destruct (decide (e.1 = entry.1)) as [Heq|Hne].
  - inversion Hin; subst; [done|].
    destruct Hfresh. rewrite Heq. by apply list_elem_of_fmap_2.
  - inversion Hin; subst; [done|]. by apply IH.
Qed.

(** The cache [routes()] fills is the table it returned: a second call
    returns the same table and changes nothing. *)
Lemma routes_twice (r : router) :
  routes (routes r).2 = ((routes r).1, (routes r).2).
Proof.
  unfold routes. destruct (m_routes r) eqn:Hcache; simpl; [|done].
  by rewrite Hcache.
Qed.

Lemma routes_keeps (r : router) :
  m_ports (routes r).2 = m_ports r
  /\ m_configuration (routes r).2 = m_configuration r.
Proof. unfold routes. by destruct (m_routes r). Qed.

Section Loop.
Context {AddressType : Type}.
Variable has : ip_route -> AddressType -> bool.

(** A port the loop yields is the registry entry of a table entry whose
    route contains the destination. *)
Lemma select_route_chosen cfg (ports : port_list_type) source_port dest
    (table : routes_port_type) target :
  select_route has cfg ports source_port dest table = Done (Some target) ->
  exists route_port,
    route_port ∈ table /\ has route_port.1 dest = true
    /\ ports_find ports route_port.2 = Some target.
Proof.
  induction table as [|route_port rest IH]; simpl; [discriminate|].
  destruct (has route_port.1 dest) eqn:Hhas.
  - destruct (client_routing_enabled cfg).
    + intros [= Hfind]. exists route_port. split; [by left | done].
    + destruct (ports_find ports route_port.2) as [candidate|] eqn:Hfind;
        [|discriminate].
      destruct (decide (group source_port ≠ group candidate.2)).
      * intros [= <-]. exists route_port. split; [by left | done].
      * intros Hsel. destruct (IH Hsel) as (rp & Hin & Hrest).
        exists rp. split; [by right | done].
  - intros Hsel. destruct (IH Hsel) as (rp & Hin & Hrest).
    exists rp. split; [by right | done].
Qed.

(** A table none of whose routes contains the destination yields no
    route, and no registry entry is looked at. *)
Lemma select_route_no_match cfg (ports : port_list_type) source_port dest
    (table : routes_port_type) :
  Forall (fun route_port => has route_port.1 dest = false) table ->
  select_route has cfg ports source_port dest table = Done None.
Proof.
  induction 1 as [|route_port rest Hhas _ IH]; simpl; [done|].
  by rewrite Hhas.
Qed.

(** With the policy flag on, the loop does not look at the source port. *)
Lemma select_route_on_any_source cfg (ports : port_list_type)
    source_port source_port' dest (table : routes_port_type) :
  client_routing_enabled cfg = true ->
  select_route has cfg ports source_port dest table
  = select_route has cfg ports source_port' dest table.
Proof.
  intros Hon. induction table as [|route_port rest IH]; simpl; [done|].
  rewrite Hon. by rewrite IH.
Qed.

(** Every entry of the flattened local routes comes from a local route of
    a registered port. *)
Lemma flattened_local_routes_elem (ports : port_list_type) route_port :
  route_port ∈ flattened_local_routes ports ->
  exists port, port ∈ ports /\ port.1 = route_port.2
               /\ route_port.1 ∈ local_routes port.2.
Proof.
  unfold flattened_local_routes. rewrite list_elem_of_In, in_flat_map.
  intros (port & Hport & Hin).
  apply in_map_iff in Hin as (route & <- & Hroute).
  exists port. by rewrite <- !list_elem_of_In in *.
Qed.

Lemma unadvertised_flattened (ports : port_list_type) dest :
  unadvertised has ports dest = true ->
  Forall (fun route_port => has route_port.1 dest = false)
    (flattened_local_routes ports).
Proof.
  unfold unadvertised. rewrite forallb_forall. intros Hall.
  apply Forall_forall. intros route_port Hin.
  apply flattened_local_routes_elem in Hin as (port & Hport & _ & Hroute).
  apply list_elem_of_In, Hall in Hport. rewrite forallb_forall in Hport.
  apply list_elem_of_In, Hport in Hroute. by apply negb_true_iff in Hroute.
Qed.
End Loop.

Variable ipv4_parse : const_buffer -> option address_v4.
Variable ipv6_parse : const_buffer -> option address_v6.

(** The router a selector call leaves is the router itself or the router
    with its cache filled. *)
Lemma get_target_for_state (r : router) index data :
  (get_target_for ipv4_parse ipv6_parse r index data).2 = r
  \/ (get_target_for ipv4_parse ipv6_parse r index data).2 = (routes r).2.
Proof.
  unfold get_target_for, get_target_for_addr.
  destruct (ipv4_parse data); [|destruct (ipv6_parse data); [|by left]];
    (destruct (ports_find (m_ports r) index); [|by left]);
    destruct (routes r); by right.
Qed.

(** The selector answers the same on a router and on that router with its
    cache filled. *)
Lemma get_target_for_filled_cache (r : router) index data :
  (get_target_for ipv4_parse ipv6_parse (routes r).2 index data).1
  = (get_target_for ipv4_parse ipv6_parse r index data).1.
Proof.
  unfold get_target_for, get_target_for_addr.
  destruct (routes_keeps r) as [-> ->]. rewrite routes_twice.
  destruct (ipv4_parse data); [|destruct (ipv6_parse data); [|done]];
    (destruct (ports_find (m_ports r) index); [|done]);
    by destruct (routes r).
Qed.

(** X3. Filling the route cache is not observable: after any selector
    call, the registry and the configuration are as before, and every
    later selector call and every later [async_write] gives the result it
    would have given on the router before the call. *)
Theorem X3_cache_is_transparent (r : router) index data index' data' handler' :
  let r' := (get_target_for ipv4_parse ipv6_parse r index data).2 in
  m_ports r' = m_ports r
  /\ m_configuration r' = m_configuration r
  /\ (get_target_for ipv4_parse ipv6_parse r' index' data').1
     = (get_target_for ipv4_parse ipv6_parse r index' data').1
  /\ (async_write ipv4_parse ipv6_parse r' index' data' handler').1
     = (async_write ipv4_parse ipv6_parse r index' data' handler').1.
Proof.
  intros r'.
  assert ((get_target_for ipv4_parse ipv6_parse r' index' data').1
          = (get_target_for ipv4_parse ipv6_parse r index' data').1) as Hsame.
  { subst r'. destruct (get_target_for_state r index data) as [->| ->];
      [done | apply get_target_for_filled_cache]. }
  repeat split.
  - subst r'. destruct (get_target_for_state r index data) as [->| ->];
      [done | apply routes_keeps].
  - subst r'. destruct (get_target_for_state r index data) as [->| ->];
      [done | apply routes_keeps].
  - exact Hsame.
  - unfold async_write.
    destruct (get_target_for ipv4_parse ipv6_parse r' index' data')
      as [res1 r1], (get_target_for ipv4_parse ipv6_parse r index' data')
      as [res2 r2].
    simpl in Hsame. subst res2. by destruct res1 as [[?|]|].
Qed.

(** X4. Starting from an invalidated cache and a registry with unique
    keys, a frame is only ever resolved to a registered port that
    advertises a local route containing the frame's destination. *)
Theorem X4_target_advertises_destination (r : router) index data dest target :
  m_routes r = None ->
  NoDup (m_ports r).*1 ->
  frame_destination ipv4_parse ipv6_parse data = Some dest ->
  (get_target_for ipv4_parse ipv6_parse r index data).1 = Done (Some target) ->
  target ∈ m_ports r
  /\ exists route, route ∈ local_routes target.2 /\ has_address route dest = true.
Proof.
  intros Hcache Hnodup Hdest Hsel.
  unfold get_target_for in Hsel. unfold frame_destination in Hdest.
  assert (exists source_port,
             select_route has_address (m_configuration r) (m_ports r)
               source_port dest (compile_routes (m_ports r) [])
             = Done (Some target)) as [source_port Hloop].
  { unfold get_target_for_addr, routes in Hsel. rewrite Hcache in Hsel.
    destruct (ipv4_parse data) as [d4|].
    - injection Hdest as <-.
      destruct (ports_find (m_ports r) index) as [source_entry|];
        [|discriminate].
      exists source_entry.2. simpl in Hsel. rewrite <- Hsel.
      by apply select_route_ext.
    - destruct (ipv6_parse data) as [d6|]; [|discriminate].
      injection Hdest as <-.
      destruct (ports_find (m_ports r) index) as [source_entry|];
        [|discriminate].
      exists source_entry.2. simpl in Hsel. rewrite <- Hsel.
      by apply select_route_ext. }
  apply select_route_chosen in Hloop as (route_port & Hin & Hhas & Hfind).
  rewrite compile_routes_perm, app_nil_r in Hin.
  apply flattened_local_routes_elem in Hin as (port & Hport & Hkey & Hroute).
  rewrite <- Hkey, (ports_find_NoDup _ _ Hnodup Hport) in Hfind.
  injection Hfind as <-. split; [done|]. by exists route_port.1.
Qed.

(** X5. Starting from an invalidated cache, a frame whose destination no
    local route of any registered port contains has no route, and
    [async_write] calls no port for it; this covers the empty registry and
    ports without local routes. *)
Theorem X5_unadvertised_destination_dropped (r : router) index data dest handler :
  m_routes r = None ->
  frame_destination ipv4_parse ipv6_parse data = Some dest ->
  unadvertised has_address (m_ports r) dest = true ->
  (get_target_for ipv4_parse ipv6_parse r index data).1 = Done None
  /\ (async_write ipv4_parse ipv6_parse r index data handler).1 = Done [].
Proof.
  intros Hcache Hdest Hnone.
  assert ((get_target_for ipv4_parse ipv6_parse r index data).1 = Done None)
    as Hsel.
  { assert (forall source_port,
               select_route has_address (m_configuration r) (m_ports r)
                 source_port dest (compile_routes (m_ports r) []) = Done None)
      as Hloop.
    { intros source_port. apply select_route_no_match.
      apply Forall_forall. intros route_port Hin.
      rewrite compile_routes_perm, app_nil_r in Hin.
      pose proof (unadvertised_flattened _ _ _ Hnone) as Hall.
      rewrite Forall_forall in Hall. by apply Hall. }
    unfold get_target_for, get_target_for_addr, routes.
    unfold frame_destination in Hdest. rewrite Hcache.
    destruct (ipv4_parse data) as [d4|].
    - injection Hdest as <-.
      destruct (ports_find (m_ports r) index) as [source_entry|]; [|done].
      simpl. rewrite <- (Hloop source_entry.2). by apply select_route_ext.
    - destruct (ipv6_parse data) as [d6|]; [|discriminate].
      injection Hdest as <-.
      destruct (ports_find (m_ports r) index) as [source_entry|]; [|done].
      simpl. rewrite <- (Hloop source_entry.2). by apply select_route_ext. }
  split; [exact Hsel|]. unfold async_write.
  destruct (get_target_for ipv4_parse ipv6_parse r index data) as [res r1].
  simpl in Hsel. by subst res.
Qed.

(** The loop behind a selector call that yields a port. *)
Lemma get_target_for_loop (r : router) index data target :
  (get_target_for ipv4_parse ipv6_parse r index data).1 = Done (Some target) ->
  exists source_entry dest,
    ports_find (m_ports r) index = Some source_entry
    /\ frame_destination ipv4_parse ipv6_parse data = Some dest
    /\ select_route has_address (m_configuration r) (m_ports r)
         source_entry.2 dest (routes r).1 = Done (Some target).
Proof.
  unfold get_target_for, get_target_for_addr, frame_destination.
  destruct (ipv4_parse data) as [d4|]; [|destruct (ipv6_parse data) as [d6|]];
    [| |discriminate];
    (destruct (ports_find (m_ports r) index) as [source_entry|];
       [|discriminate]);
    destruct (routes r) as [table r1]; simpl; intros Hsel;
    eexists source_entry, _; (split; [done|]); (split; [done|]);
    rewrite <- Hsel; by apply select_route_ext.
Qed.

(** X6. With [client_routing_enabled] off, the selector never resolves a
    frame to a port whose group tag equals the source port's, whatever the
    state of the route table. *)
Theorem X6_no_intra_group_delivery (r : router) index data source_entry target :
  client_routing_enabled (m_configuration r) = false ->
  ports_find (m_ports r) index = Some source_entry ->
  (get_target_for ipv4_parse ipv6_parse r index data).1 = Done (Some target) ->
  group source_entry.2 ≠ group target.2.
Proof.
  intros Hoff Hsource Hsel.
  apply get_target_for_loop in Hsel as (source_entry' & dest & Hsource' & _ & Hloop).
  rewrite Hsource in Hsource'. injection Hsource' as <-.
  by apply select_route_off_group in Hloop as [Hgroup _].
Qed.

(** X7. With [client_routing_enabled] on, the port a frame is resolved to
    does not depend on which registered port the frame came from. *)
Theorem X7_source_irrelevant_when_client_routing_on (r : router)
    index index' data :
  client_routing_enabled (m_configuration r) = true ->
  is_Some (ports_find (m_ports r) index) ->
  is_Some (ports_find (m_ports r) index') ->
  get_target_for ipv4_parse ipv6_parse r index data
  = get_target_for ipv4_parse ipv6_parse r index' data.
Proof.
  intros Hon [source_entry Hsource] [source_entry' Hsource'].
  unfold get_target_for, get_target_for_addr. rewrite Hsource, Hsource'.
  destruct (ipv4_parse data); [|destruct (ipv6_parse data); [|done]];
    destruct (routes r); f_equal; by apply select_route_on_any_source.
Qed.
End SelectorFurther.

(** * Running scripts and locating directories *)
Section SystemProperties.
Import System.

(** The loop over [env] computes the union that prefers [env]. *)
Lemma overlay_union (current env : gmap string string) :
  overlay current env = env ∪ current.
Proof.
  unfold overlay.
  apply (map_fold_weak_ind (fun result m => result = m ∪ current)).
  - by rewrite (left_id_L ∅ (∪)).
  - intros name value m result Hfresh ->. by rewrite insert_union_l.
Qed.

(** X8. [execute] runs the script with the script path as first argument
    followed by [args] in order, in the current environment overridden by
    [env]: a variable bound in [env] has the value [env] gives it, any
    other variable keeps the value of the current environment, and no
    other variable appears. It returns the return code of the script
    unchanged. *)
Theorem X8_execute_environment (current env : gmap string string)
    run script args :
  (execute current run script args env).2
  = (run (script :: args) (overlay current env)).1
  /\ forall name,
       overlay current env !! name
       = match env !! name with
         | Some value => Some value
         | None => current !! name
         end.
Proof.
  split.
  - unfold execute. simpl. by destruct (run _ _).
  - intros name. rewrite overlay_union, lookup_union.
    destruct (env !! name), (current !! name); done.
Qed.

(** X9. [execute] first logs that it calls the script, at debug level; it
    logs a message at warning level exactly when the return code is not
    zero; and it logs two messages when the script wrote nothing, three
    otherwise. *)
Theorem X9_execute_log (current env : gmap string string) run script args :
  let result := run (script :: args) (overlay current env) in
  let log := (execute current run script args env).1 in
  head log
  = Some {| entry_level := debug;
            entry_message := "Calling script " +:+ script +:+ "..." |}
  /\ ((exists entry, entry ∈ log /\ entry_level entry = warning)
      <-> result.1 ≠ 0%Z)
  /\ length log = (if decide (result.2 = "") then 2 else 3).
Proof.
  unfold execute. simpl.
  destruct (run (script :: args) (overlay current env)) as [return_code output].
  simpl. split; [done|]. split.
  - split.
    + intros (entry & Hin & Hlevel) ->. simpl in Hin.
      destruct (decide (output = "")) as [Hout|Hout];
        repeat (apply elem_of_cons in Hin as [->|Hin]; [done|]);
        by inversion Hin.
    + intros Hcode. eexists. split; [right; left|].
      simpl. by destruct (decide (return_code = 0%Z)).
  - by destruct (decide (output = "")).
Qed.

(** X10. Missing and empty variables. [get_home_directory] throws exactly
    when [HOME] is not set and otherwise returns its value as it is. The
    virtual environment and Python home directories are the empty path
    exactly when their variable is not set or set to the empty string,
    whereas the Python path directory is empty only for a [PYTHONPATH] set
    to the empty string, never for one that is not set. *)
Theorem X10_directories_on_missing_variables (name_version : string)
    (environ : gmap string string) :
  (get_home_directory environ = Throws "Unable to determine the home directory"
   <-> environ !! "HOME" = None)
  /\ (forall path,
         get_home_directory environ = Returns path
         <-> environ !! "HOME" = Some path)
  /\ (get_python_virtual_environment_directory environ = ""
      <-> environ !! "VIRTUAL_ENV" = None \/ environ !! "VIRTUAL_ENV" = Some "")
  /\ (get_python_home_directory environ = ""
      <-> environ !! "PYTHONHOME" = None \/ environ !! "PYTHONHOME" = Some "")
  /\ (get_python_path_directory name_version environ = ""
      <-> environ !! "PYTHONPATH" = Some "").
Proof.
  unfold get_home_directory, get_python_virtual_environment_directory,
    get_python_home_directory, get_python_path_directory, getenv.
  repeat split.
  - by destruct (environ !! "HOME").
  - by intros ->.
  - destruct (environ !! "HOME"); by intros [= ->].
  - by intros ->.
  - destruct (environ !! "VIRTUAL_ENV"); [intros ->; by right | by left].
  - by intros [-> | ->].
  - destruct (environ !! "PYTHONHOME"); [intros ->; by right | by left].
  - by intros [-> | ->].
  - destruct (environ !! "PYTHONPATH"); [by intros -> | done].
  - by intros ->.
Qed.
End SystemProperties.

(** * Creating certificates *)
Section CertificateCreation.
Import Certificate.
Variable X509 : Type.

(** X11. When the allocation succeeds, [create] returns a non-null
    certificate that wraps a blank object, compares unequal to every
    certificate that wraps a live object, and leaves those objects as
    they were. *)
Theorem X11_create_is_fresh (h : heap X509) allocated (blank : X509) :
  allocatable X509 h allocated -> allocated ≠ NULL ->
  exists c h',
    create X509 h allocated blank = Returned (c, h')
    /\ raw c ≠ NULL
    /\ h' !! raw c = Some blank
    /\ forall c0 : certificate,
         is_Some (h !! raw c0) ->
         eq_op c c0 = false /\ eq_op c0 c = false
         /\ h' !! raw c0 = h !! raw c0.
Proof.
  intros [?|Hfree] Hgot; [done|].
  unfold create, X509_new, take_ownership, eq_op, heap, NULL in *.
  rewrite !decide_False by done. simpl. rewrite ?decide_False by done.
  eexists _, _. split; [done|]. simpl. split; [done|].
  split; [apply lookup_insert_eq|].
  intros c0 [x Hlive].
  assert (raw c0 ≠ allocated) as Hne by congruence.
  rewrite !bool_decide_eq_false_2 by congruence.
  by rewrite lookup_insert_ne.
Qed.

(** X12. When the allocation fails, [create] throws and [take_ownership]
    refuses the null pointer, but [clone] throws nothing: it returns the
    null certificate, the one the default constructor builds, and leaves
    the objects as they were. *)
Theorem X12_failed_allocation (h : heap X509) (c : certificate) (blank : X509) :
  is_Some (h !! raw c) ->
  create X509 h NULL blank = cryptographic_exception
  /\ take_ownership NULL = cryptographic_exception
  /\ clone X509 h NULL c = Done (null_certificate, h).
Proof.
  intros [x Hlive]. unfold clone, X509_dup. rewrite Hlive. done.
Qed.
End CertificateCreation.

(** * More on the enumeration of tap adapters *)
Section EnumerateFurther.
Import PosixTapAdapter.

Lemma recorded_ip_ethernet name : recorded ip name -> recorded ethernet name.
Proof. simpl. by right. Qed.

(** X13. Whatever the ip layer lists, the ethernet layer lists too. *)
Theorem X13_ip_listed_under_ethernet (addrs : option (list string)) :
  enumerate addrs ip ⊆ enumerate addrs ethernet.
Proof.
  apply map_subseteq_spec. intros name value.
  destruct addrs as [ifas|]; simpl; [|done].
  rewrite !fold_switch_layer_lookup, !lookup_empty.
  intros [(-> & Hin & Hrec) | [_ [=]]]. left.
  repeat split; [done|]. by apply recorded_ip_ethernet.
Qed.

(** X14. The map depends on which names [getifaddrs] lists, not on their
    order nor on how often a name is listed (an interface appears once per
    address it has). *)
Theorem X14_enumerate_ignores_order_and_repeats (ifas ifas' : list string)
    (_layer : tap_adapter_layer) :
  (forall name, name ∈ ifas <-> name ∈ ifas') ->
  enumerate (Some ifas) _layer = enumerate (Some ifas') _layer.
Proof.
  intros Hsame. apply map_eq. intros name. apply option_eq. intros value.
  simpl. rewrite !fold_switch_layer_lookup, !lookup_empty, Hsame. done.
Qed.
End EnumerateFurther.

(** * The further properties at the scenarios *)
Section FurtherScenarios.
Import Router Scenario.

Ltac order_cases :=
  repeat match goal with
    | |- context [(?x <? ?y)%N] => destruct (N.ltb_spec x y)
    | |- context [(?x =? ?y)%N] => destruct (N.eqb_spec x y)
    end;
  simpl; try done; try lia.

Lemma route_before_asym (a b : route) :
  route_before a b = true -> route_before b a = false.
Proof. destruct a, b; simpl; order_cases. Qed.

Lemma route_before_neg_trans (a b c : route) :
  route_before a b = false -> route_before b c = false ->
  route_before a c = false.
Proof. destruct a, b, c; simpl; order_cases. Qed.

(** The ordering of the scenario routes is a strict weak ordering. *)
Lemma route_before_order : StrictWeakOrder (H := types).
Proof.
  split; [exact route_before_asym | exact route_before_neg_trans].
Qed.

Lemma X1_witness :
  Sorted not_after (routes (fresh_router false three_ports)).1.
Proof.
  apply (X1_rebuilt_table_sorted (H := types)
           {| client_routing_enabled := false |} three_ports).
  exact route_before_asym.
Defined.

Lemma X2_witness :
  filter (fun e => route_equiv net_a e.1 = true)
    (routes (fresh_router false three_ports)).1
  = filter (fun e => route_equiv net_a e.1 = true)
      (flattened_local_routes three_ports).
Proof.
  apply (X2_rebuilt_table_stable (H := types)
           (H0 := route_before_order)
           {| client_routing_enabled := false |} three_ports net_a).
Defined.

Lemma X4_witness :
  (2, port_b) ∈ cross_group_ports
  /\ exists route,
       route ∈ local_routes (2, port_b).2
       /\ has_address route (inl (ipv4 10 0 1 5)) = true.
Proof.
  apply (X4_target_advertises_destination (H := types) parse_v4 parse_v6
           (fresh_router false cross_group_ports) 1 frame_to_b
           (inl (ipv4 10 0 1 5)) (2, port_b)).
  - reflexivity.
  - apply (bool_decide_unpack _). reflexivity.
  - reflexivity.
  - reflexivity.
Defined.

Lemma X5_witness :
  (get_target_for parse_v4 parse_v6
     (fresh_router true [(1, port 1 []); (2, port 2 [net_b])]) 1 frame_to_a).1
  = Done None
  /\ (async_write parse_v4 parse_v6
        (fresh_router true [(1, port 1 []); (2, port 2 [net_b])])
        1 frame_to_a 5).1
     = Done [].
Proof.
  apply (X5_unadvertised_destination_dropped (H := types) parse_v4 parse_v6
           (fresh_router true [(1, port 1 []); (2, port 2 [net_b])])
           1 frame_to_a (inl (ipv4 10 0 0 5)) 5); reflexivity.
Defined.

Lemma X6_witness : group (1, port_a).2 ≠ group (2, port_b).2.
Proof.
  apply (X6_no_intra_group_delivery (H := types) parse_v4 parse_v6
           (fresh_router false cross_group_ports) 1 frame_to_b
           (1, port_a) (2, port_b)); reflexivity.
Defined.

Lemma X7_witness :
  get_target_for parse_v4 parse_v6 (fresh_router true same_group_ports)
    1 frame_to_b
  = get_target_for parse_v4 parse_v6 (fresh_router true same_group_ports)
      2 frame_to_b.
Proof.
  apply (X7_source_irrelevant_when_client_routing_on (H := types)
           parse_v4 parse_v6 (fresh_router true same_group_ports)
           1 2 frame_to_b).
  - reflexivity.
  - by eexists.
  - by eexists.
Defined.
End FurtherScenarios.

Section FurtherInstances.
Import PosixTapAdapter Certificate.

Lemma X11_witness :
  exists (c : certificate) (h' : heap nat),
    create nat {[ 5%N := 42 ]} 8%N 0 = Returned (c, h')
    /\ raw c ≠ NULL
    /\ h' !! raw c = Some 0
    /\ forall c0 : certificate,
         is_Some (({[ 5%N := 42 ]} : heap nat) !! raw c0) ->
         eq_op c c0 = false /\ eq_op c0 c = false
         /\ h' !! raw c0 = ({[ 5%N := 42 ]} : heap nat) !! raw c0.
Proof.
  apply (X11_create_is_fresh nat {[ 5%N := 42 ]} 8%N 0).
  - right. reflexivity.
  - discriminate.
Defined.

Lemma X12_witness :
  create nat {[ 5%N := 42 ]} NULL 0 = cryptographic_exception
  /\ take_ownership NULL = cryptographic_exception
  /\ clone nat {[ 5%N := 42 ]} NULL {| raw := 5%N |}
     = Done (null_certificate, {[ 5%N := 42 ]}).
Proof.
  apply (X12_failed_allocation nat {[ 5%N := 42 ]} {| raw := 5%N |} 0).
  by eexists.
Defined.

Lemma X14_witness :
  enumerate (Some ["tun0"; "tap0"; "tun0"; "lo"]) ethernet
  = enumerate (Some ["lo"; "tap0"; "tun0"]) ethernet.
Proof.
  apply (X14_enumerate_ignores_order_and_repeats
           ["tun0"; "tap0"; "tun0"; "lo"] ["lo"; "tap0"; "tun0"] ethernet).
  intros name. rewrite !elem_of_cons, !elem_of_nil. tauto.
Defined.
End FurtherInstances.
